(** * Display backends of pycaret: a shallow embedding

    Source: [pycaret/internal/display/display_backend.py].

    The module defines four display backends ([SilentBackend], [CLIBackend],
    [JupyterBackend], [ColabBackend]), a registry [backends] built from their
    [id] class attributes, and [detect_backend], which resolves a selector
    to a backend.

    Python objects that the module only inspects (pandas frames, stylers,
    IPython handles) are modelled by the observations the module makes on
    them: [isinstance], [.empty], [.data], [.to_html()], [hasattr].  What
    the module does to the host (printing, reserving a display handle,
    updating it, clearing the cell) is recorded as a trace of events in a
    small state monad; a method that can raise ends in an [outcome]. *)

From Stdlib Require Import String Ascii List Bool Arith Lia.
Import ListNotations.

Local Open Scope string_scope.
Local Open Scope list_scope.
Local Open Scope nat_scope.

(** ** Python strings

    A [str] is modelled by a [string] whose characters are the code points
    below 256.  [lower] is [str.lower] on that range: the ASCII capitals and
    the Latin-1 capitals U+00C0..U+00DE (except the multiplication sign
    U+00D7) move up by 32, every other code point is left alone. *)

Module PyStr.

Definition is_ascii_upper (n : nat) : bool := (65 <=? n) && (n <=? 90).

Definition is_latin1_upper (n : nat) : bool :=
  (192 <=? n) && (n <=? 222) && negb (n =? 215).

Definition lower_char (c : ascii) : ascii :=
  let n := nat_of_ascii c in
  if is_ascii_upper n || is_latin1_upper n then ascii_of_nat (n + 32) else c.

Fixpoint lower (s : string) : string :=
  match s with
  | EmptyString => EmptyString
  | String c rest => String (lower_char c) (lower rest)
  end.

(** [sub in s]: the substring test of Python's [in] on strings. *)
Fixpoint contains (sub s : string) : bool :=
  prefix sub s ||
  match s with
  | EmptyString => false
  | String _ rest => contains sub rest
  end.

(** [sep.join(parts)]. *)
Fixpoint join (sep : string) (parts : list string) : string :=
  match parts with
  | [] => EmptyString
  | [p] => p
  | p :: rest => p ++ sep ++ join sep rest
  end%string.

(** [repr] of a [str] made of plain identifier characters: the string
    between single quotes.  (The registry keys, the only strings whose
    [repr] the module prints, are such strings.) *)
Definition repr (s : string) : string := ("'" ++ s ++ "'")%string.

(** [repr] of a list of such strings, as in [f"{list(d.keys())}"]. *)
Definition repr_list (l : list string) : string :=
  ("[" ++ join ", " (map repr l) ++ "]")%string.

(** A letter-case variant of an identifier: the same length, and at each
    position the identifier's character or its ASCII capital. *)
Definition upper_ascii_char (c : ascii) : ascii :=
  let n := nat_of_ascii c in
  if (97 <=? n) && (n <=? 122) then ascii_of_nat (n - 32) else c.

Fixpoint case_variant (s ident : string) : Prop :=
  match s, ident with
  | EmptyString, EmptyString => True
  | String c s', String k ident' =>
      (c = k \/ c = upper_ascii_char k) /\ case_variant s' ident'
  | _, _ => False
  end.

(** An identifier written in lower-case ASCII letters only. *)
Fixpoint lower_ident (s : string) : bool :=
  match s with
  | EmptyString => true
  | String c rest =>
      let n := nat_of_ascii c in
      (97 <=? n) && (n <=? 122) && lower_ident rest
  end.

End PyStr.

(** ** Displayable values

    [display] receives any Python object.  The module tells apart: [None];
    a pandas [Styler] (of which it reads [.data] and [.to_html()]); a
    [pd.Series] or [pd.DataFrame] (of which it reads [.empty]); anything
    else.  Of every object it may ask [hasattr(obj, "show")]. *)

Record DataFrame : Type := {
  df_rows : nat;                (* len(df.index) *)
  df_cols : nat;                (* len(df.columns) *)
  df_attrs : list string        (* names that resolve as attributes *)
}.

Record Series : Type := {
  sr_size : nat;                (* len(s.index) *)
  sr_attrs : list string
}.

Record Styler : Type := {
  data : DataFrame;             (* styler.data *)
  to_html : string              (* styler.to_html() *)
}.

Record PyObject : Type := {
  py_type : string;
  py_attrs : list string
}.

Inductive value : Type :=
| PyNone
| VStyler (s : Styler)
| VSeries (s : Series)
| VDataFrame (d : DataFrame)
| HTML (markup : string)        (* IPython.display.HTML(markup) *)
| VObject (o : PyObject).

(** [DataFrame.empty] and [Series.empty]: some axis has length zero. *)
Definition df_empty (d : DataFrame) : bool :=
  (df_rows d =? 0) || (df_cols d =? 0).

Definition sr_empty (s : Series) : bool := sr_size s =? 0.

Definition is_Styler (obj : value) : bool :=
  match obj with VStyler _ => true | _ => false end.

(** [isinstance(obj, (pd.Series, pd.DataFrame)) and obj.empty]. *)
Definition is_empty_tabular (obj : value) : bool :=
  match obj with
  | VSeries s => sr_empty s
  | VDataFrame d => df_empty d
  | _ => false
  end.

Definition mem (name : string) (names : list string) : bool :=
  existsb (String.eqb name) names.

(** [hasattr(obj, name)].  [None], [Styler] and [HTML] objects have a fixed
    attribute set; the module only ever asks for ["show"], which none of
    them has. *)
Definition hasattr (obj : value) (name : string) : bool :=
  match obj with
  | VSeries s => mem name (sr_attrs s)
  | VDataFrame d => mem name (df_attrs d)
  | VObject o => mem name (py_attrs o)
  | PyNone | VStyler _ | HTML _ => false
  end.

(** ** The host's output surface

    A [DisplayHandle] is identified by its display id.  The trace records,
    in order, every call of the module that the host receives. *)

Definition DisplayHandle : Type := nat.

Inductive event : Type :=
| Show (obj : value)                         (* obj.show() *)
| Pprint (obj : value)                       (* pprint(obj) *)
| Reserve (h : DisplayHandle)                (* display(display_id=True) -> h *)
| Update (h : DisplayHandle) (obj : value)   (* h.update(obj) *)
| ClearOutput (wait : bool).                 (* clear_output(wait=...) *)

Record host : Type := {
  next_display_id : nat;
  output : list event
}.

Definition IO (A : Type) : Type := host -> A * host.

Definition ret {A} (a : A) : IO A := fun w => (a, w).

Definition bind {A B} (m : IO A) (k : A -> IO B) : IO B :=
  fun w => let (a, w') := m w in k a w'.

Notation "x <- m ;; k" := (bind m (fun x => k))
  (at level 61, m at next level, right associativity).
Notation "m ;;; k" := (bind m (fun _ => k))
  (at level 61, right associativity).

Definition emit (e : event) : IO unit :=
  fun w => (tt, {| next_display_id := next_display_id w;
                   output := output w ++ [e] |}).

(** [display(display_id=True)]: the host reserves an output slot and hands
    back a handle with a display id not used before. *)
Definition display_new_id : IO DisplayHandle :=
  fun w => let h := next_display_id w in
           (h, {| next_display_id := S h;
                  output := output w ++ [Reserve h] |}).

(** [clear_output(wait=True)] of IPython. *)
Definition ipython_clear_output (wait : bool) : IO unit :=
  emit (ClearOutput wait).

(** ** Exceptions *)

Inductive exn : Type :=
| ValueError (msg : string)
| TypeError (msg : string).

(** What [h.update()] raises.  [DisplayHandle.update(self, obj, **kwargs)]
    requires [obj]; a call without it is rejected when the arguments are
    bound, before anything reaches the host.  (The message is the one of
    CPython 3.10 and later.) *)
Definition update_missing_obj : exn :=
  TypeError "DisplayHandle.update() missing 1 required positional argument: 'obj'".

(** ** The backend classes *)

Inductive backend_class : Type :=
| SilentBackend
| CLIBackend
| JupyterBackend
| ColabBackend.

(** Class attribute [id]; [ColabBackend] overrides the one it inherits. *)
Definition id (b : backend_class) : string :=
  match b with
  | SilentBackend => "silent"
  | CLIBackend => "cli"
  | JupyterBackend => "jupyter"
  | ColabBackend => "colab"
  end.

(** Class attribute [can_update]; [ColabBackend] inherits it. *)
Definition can_update (b : backend_class) : bool :=
  match b with
  | SilentBackend | CLIBackend => false
  | JupyterBackend | ColabBackend => true
  end.

(** A backend instance.  [_display_ref] is the attribute that
    [JupyterBackend.__init__] sets to [None]; instances of the two classes
    without [__init__] never read or write it. *)
Record instance : Type := {
  class_of : backend_class;
  _display_ref : option DisplayHandle
}.

(** [cls()]. *)
Definition new (cls : backend_class) : instance :=
  {| class_of := cls; _display_ref := None |}.

(** [self._handle_input(obj)], dispatched on the class of [self]. *)
Definition _handle_input (cls : backend_class) (obj : value) : value :=
  match cls with
  | SilentBackend => obj   (* not defined on the class, never called *)
  | CLIBackend =>
      let obj := match obj with VStyler s => VDataFrame (data s) | _ => obj end in
      if is_empty_tabular obj then PyNone else obj
  | JupyterBackend => obj
  | ColabBackend =>
      match obj with
      | VStyler s => HTML (to_html s)
      | _ => obj
      end
  end.

Definition is_None (obj : value) : bool :=
  match obj with PyNone => true | _ => false end.

(** [self.display(obj)]; returns [self] as the call leaves it. *)
Definition display (self : instance) (obj : value) : IO instance :=
  match class_of self with
  | SilentBackend => ret self
  | CLIBackend =>
      let obj := _handle_input CLIBackend obj in
      if is_None obj then ret self
      else if hasattr obj "show" then emit (Show obj) ;;; ret self
      else emit (Pprint obj) ;;; ret self
  | JupyterBackend | ColabBackend =>
      h <- match _display_ref self with
           | Some h => ret h
           | None => display_new_id
           end ;;
      let self := {| class_of := class_of self; _display_ref := Some h |} in
      let obj := _handle_input (class_of self) obj in
      if is_None obj then ret self
      else emit (Update h obj) ;;; ret self
  end.

(** How a call on an instance ends: it returns, or it raises; either way
    the instance is left in some state. *)
Inductive outcome : Type :=
| Returned (self : instance)
| Raised (e : exn) (self : instance).

Definition instance_of (o : outcome) : instance :=
  match o with
  | Returned self => self
  | Raised _ self => self
  end.

(** [self.clear_display()].  With a handle, the notebook-family method
    calls [self._display_ref.update()], without an argument. *)
Definition clear_display (self : instance) : IO outcome :=
  match class_of self with
  | SilentBackend | CLIBackend => ret (Returned self)
  | JupyterBackend | ColabBackend =>
      match _display_ref self with
      | Some _ => ret (Raised update_missing_obj self)
      | None => ret (Returned self)
      end
  end.

(** [self.clear_output()]. *)
Definition clear_output (self : instance) : IO instance :=
  match class_of self with
  | SilentBackend | CLIBackend => ret self
  | JupyterBackend | ColabBackend => ipython_clear_output true ;;; ret self
  end.

(** ** The registry

    [backends] is first a list of classes, then rebound to the dict
    [{b.id: b for b in backends}].  A dict keeps its keys in insertion
    order, and [list(backends.keys())] is printed in the error message, so
    the dict is an association list in insertion order. *)

Definition dict (V : Type) : Type := list (string * V).

(** [d[k] = v]: replace the value in place, or append a new item. *)
Fixpoint dict_set {V} (k : string) (v : V) (d : dict V) : dict V :=
  match d with
  | [] => [(k, v)]
  | (k', v') :: rest =>
      if String.eqb k' k then (k', v) :: rest
      else (k', v') :: dict_set k v rest
  end.

(** [d.get(k, None)]. *)
Fixpoint dict_get {V} (d : dict V) (k : string) : option V :=
  match d with
  | [] => None
  | (k', v) :: rest => if String.eqb k' k then Some v else dict_get rest k
  end.

(** [list(d.keys())]. *)
Definition keys {V} (d : dict V) : list string := map fst d.

Definition backends_list : list backend_class :=
  [CLIBackend; JupyterBackend; ColabBackend; SilentBackend].

Definition backends : dict backend_class :=
  fold_left (fun d b => dict_set (id b) b d) backends_list [].

(** ** Selectors

    [detect_backend] takes any object.  It tells apart [None], a [str], an
    instance of [DisplayBackend] (of the class itself, of one of the four
    concrete classes, or of a class deriving from them), and everything
    else.  [pyclass] is the class of a selector that is neither [None] nor a
    [str], with the chain of base classes that [isinstance] walks. *)

Inductive pyclass : Type :=
| DisplayBackend
| Concrete (c : backend_class)
| Subclass (qualname : string) (base : pyclass)   (* class qualname(base) *)
| Foreign (qualname : string).                    (* unrelated to DisplayBackend *)

Fixpoint issubclass_DisplayBackend (c : pyclass) : bool :=
  match c with
  | DisplayBackend => true
  | Concrete _ => true
  | Subclass _ base => issubclass_DisplayBackend base
  | Foreign _ => false
  end.

Definition module_name : string := "pycaret.internal.display.display_backend".

Definition class_name_of (b : backend_class) : string :=
  match b with
  | SilentBackend => "SilentBackend"
  | CLIBackend => "CLIBackend"
  | JupyterBackend => "JupyterBackend"
  | ColabBackend => "ColabBackend"
  end.

(** The name that [repr] of a class prints between the quotes: module and
    qualified name (builtins print without a module: [Foreign "int"]). *)
Definition qualname (c : pyclass) : string :=
  match c with
  | DisplayBackend => module_name ++ ".DisplayBackend"
  | Concrete b => module_name ++ "." ++ class_name_of b
  | Subclass n _ => n
  | Foreign n => n
  end%string.

(** [f"{type(obj)}"]. *)
Definition type_repr (c : pyclass) : string :=
  ("<class '" ++ qualname c ++ "'>")%string.

Record object : Type := {
  ob_type : pyclass;            (* type(obj) *)
  ob_attrs : list string        (* names for which hasattr(obj, name) *)
}.

Definition isinstance_DisplayBackend (o : object) : bool :=
  issubclass_DisplayBackend (ob_type o).

(** An object that offers the three operations of the contract. *)
Definition implements_contract (o : object) : bool :=
  mem "display" (ob_attrs o) &&
  mem "clear_display" (ob_attrs o) &&
  mem "clear_output" (ob_attrs o).

Inductive selector : Type :=
| SelNone
| SelStr (s : string)
| SelObject (o : object).

(** ** The host query

    What [get_ipython()] does when [detect_backend] calls it: it raises an
    exception, or returns [None], or returns the shell object, of which the
    module reads [__class__.__name__]. *)

Inductive shell_query : Type :=
| QueryRaises
| QueryNone
| QueryShell (class_name : string).

(** ** Results *)

(** What [detect_backend] returns: an instance it has just constructed, or
    the selector object itself. *)
Inductive backend_ref : Type :=
| Fresh (i : instance)
| Same (o : object).

Inductive result : Type :=
| Ok (b : backend_ref)
| Raise (e : exn).

Definition wrong_id_msg (backend_id : string) : string :=
  ("Wrong backend id. Got " ++ backend_id ++ ", expected one of "
     ++ PyStr.repr_list (keys backends) ++ ".")%string.

Definition wrong_type_msg (c : pyclass) : string :=
  ("Wrong backend type. Expected None, str or DisplayBackend, got "
     ++ type_repr c ++ ".")%string.

(** [detect_backend(backend)], in a process where [get_ipython()] behaves as
    [get_ipython]. *)
Definition detect_backend (get_ipython : shell_query) (backend : selector)
  : result :=
  match backend with
  | SelNone =>
      let '(class_name, is_notebook) :=
        match get_ipython with
        | QueryRaises => ("", false)
        | QueryNone => ("", false)        (* [assert ipython] fails, caught *)
        | QueryShell class_name =>
            (class_name,
             if negb (PyStr.contains "Terminal" class_name) then true else false)
        end in
      if negb is_notebook then Ok (Fresh (new CLIBackend))
      else if PyStr.contains "google.colab" class_name
           then Ok (Fresh (new ColabBackend))
           else Ok (Fresh (new JupyterBackend))
  | SelStr s =>
      let backend_id := PyStr.lower s in
      match dict_get backends backend_id with
      | None => Raise (ValueError (wrong_id_msg backend_id))
      | Some b => Ok (Fresh (new b))
      end
  | SelObject o =>
      if isinstance_DisplayBackend o then Ok (Same o)
      else Raise (TypeError (wrong_type_msg (ob_type o)))
  end.

(** ** Running a backend

    A caller invokes the three operations on one instance, one after the
    other; a call that raises ends the sequence. *)

Inductive call : Type :=
| Display (obj : value)
| ClearDisplay
| ClearOutputCall.

Definition perform (self : instance) (c : call) : IO outcome :=
  match c with
  | Display obj => self' <- display self obj ;; ret (Returned self')
  | ClearDisplay => clear_display self
  | ClearOutputCall => self' <- clear_output self ;; ret (Returned self')
  end.

Fixpoint run (self : instance) (cs : list call) : IO outcome :=
  match cs with
  | [] => ret (Returned self)
  | c :: rest =>
      o <- perform self c ;;
      match o with
      | Returned self' => run self' rest
      | Raised e self' => ret (Raised e self')
      end
  end.

Definition is_Display (c : call) : bool :=
  match c with Display _ => true | _ => false end.

Definition is_ClearDisplay (c : call) : bool :=
  match c with ClearDisplay => true | _ => false end.

Definition is_Returned (o : outcome) : bool :=
  match o with Returned _ => true | Raised _ _ => false end.

(** What a handle shows after a trace: the object of the last update, or
    nothing when it was never updated or the cell was cleared. *)
Fixpoint shown_from (acc : option value) (h : DisplayHandle) (tr : list event)
  : option value :=
  match tr with
  | [] => acc
  | Reserve h' :: rest => shown_from (if h' =? h then None else acc) h rest
  | Update h' obj :: rest => shown_from (if h' =? h then Some obj else acc) h rest
  | ClearOutput _ :: rest => shown_from None h rest
  | _ :: rest => shown_from acc h rest
  end.

Definition shown (h : DisplayHandle) (w : host) : option value :=
  shown_from None h (output w).

Definition is_Reserve (e : event) : bool :=
  match e with Reserve _ => true | _ => false end.

(** How many display handles the trace has reserved. *)
Definition reserved (tr : list event) : nat := length (filter is_Reserve tr).

(** The handle an event pushes content into, if any. *)
Definition pushes_into (e : event) : option DisplayHandle :=
  match e with
  | Update h _ => Some h
  | _ => None
  end.

(** Events that put content before the user. *)
Definition renders (e : event) : bool :=
  match e with
  | Show _ | Pprint _ | Update _ _ => true
  | _ => false
  end.

Definition fresh_host : host := {| next_display_id := 0; output := [] |}.

(** What the host has received between two of its states. *)
Definition emitted (w w' : host) : list event :=
  skipn (length (output w)) (output w').

(** ** Notions used in the statements *)

Definition notebook_family (self : instance) : Prop :=
  can_update (class_of self) = true.

(** The handle a notebook-family instance works with during a call that
    starts in host state [w]: the stored one, or the one the host is about
    to hand out. *)
Definition handle_for (self : instance) (w : host) : DisplayHandle :=
  match _display_ref self with
  | Some h => h
  | None => next_display_id w
  end.

Definition with_ref (self : instance) (h : DisplayHandle) : instance :=
  {| class_of := class_of self; _display_ref := Some h |}.

(** Every push of content in [evs] goes into handle [h]. *)
Definition only_into (h : DisplayHandle) (evs : list event) : Prop :=
  Forall (fun e => forall h', pushes_into e = Some h' -> h' = h) evs.

(** The way a call, or a sequence of calls, ends on an instance that holds
    a handle. *)
Definition ends_holding (self : instance) (clears : bool) : outcome :=
  if clears then Raised update_missing_obj self else Returned self.

(** What a run leaves behind, as one record of facts: how it ended, the
    next free display id, and the events added to the trace. *)
Definition run_leaves (self : instance) (cs : list call) (w : host)
    (o : outcome) (evs : list event) : Prop :=
  fst (run self cs w) = o /\
  next_display_id (snd (run self cs w)) = next_display_id w + reserved evs /\
  output (snd (run self cs w)) = output w ++ evs.

(** Sample inputs. *)
Definition empty_frame : DataFrame :=
  {| df_rows := 0; df_cols := 0; df_attrs := [] |}.

Definition sample_frame : DataFrame :=
  {| df_rows := 2; df_cols := 3; df_attrs := ["a"; "b"; "c"] |}.


(** The sample calls without the last one: a run that returns. *)
Definition quiet_calls : list call :=
  [ClearDisplay; Display (VDataFrame sample_frame); Display PyNone;
   ClearOutputCall; Display (HTML "<b>done</b>")].

Definition duck : object :=
  {| ob_type := Foreign "__main__.Duck";
     ob_attrs := ["display"; "clear_display"; "clear_output"] |}.

(** ** Notions used in the further properties *)

(** Events of the printing kind, which only [CLIBackend] produces. *)
Definition is_print (e : event) : bool :=
  match e with Show _ | Pprint _ => true | _ => false end.

Definition is_ClearOutput (e : event) : bool :=
  match e with ClearOutput _ => true | _ => false end.

Definition is_ClearOutputCall (c : call) : bool :=
  match c with ClearOutputCall => true | _ => false end.

(** The events one call produces on a host whose trace is empty. *)
Definition events_of (self : instance) (c : call) : list event :=
  output (snd (perform self c fresh_host)).

(** A value that is not [None], not a [Styler] and not an empty [Series]
    or [DataFrame]. *)
Definition printable (obj : value) : bool :=
  negb (is_None obj) && negb (is_Styler obj) && negb (is_empty_tabular obj).

(** The events a [CLIBackend] may produce: [show] of a printable value that
    has the attribute, [pprint] of a printable value that has not. *)
Definition cli_event (e : event) : bool :=
  match e with
  | Show obj => printable obj && hasattr obj "show"
  | Pprint obj => printable obj && negb (hasattr obj "show")
  | _ => false
  end.

(** The events a notebook-family backend may produce: nothing printed, and
    the cell only ever cleared with [wait=True]. *)
Definition notebook_event (e : event) : bool :=
  match e with
  | Show _ | Pprint _ => false
  | ClearOutput wait => wait
  | Reserve _ | Update _ _ => true
  end.

(** [sub] occurs in [s]. *)
Definition is_infix (sub s : string) : Prop :=
  exists pre post : string, s = (pre ++ sub ++ post)%string.

(** [{key(b): b for b in l}], the comprehension that builds [backends]. *)
Definition dict_comprehension {V} (key : V -> string) (l : list V) : dict V :=
  fold_left (fun d b => dict_set (key b) b d) l [].

(** * Properties *)

(** ** Sanity checks of the embedding on concrete inputs *)

Example backends_keys : keys backends = ["cli"; "jupyter"; "colab"; "silent"].
Proof. reflexivity. Qed.

Example lower_mixed : PyStr.lower "JuPyTeR" = "jupyter".
Proof. reflexivity. Qed.

Example wrong_id_msg_foo :
  detect_backend QueryNone (SelStr "Foo") =
  Raise (ValueError
    "Wrong backend id. Got foo, expected one of ['cli', 'jupyter', 'colab', 'silent'].").
Proof. reflexivity. Qed.

Example wrong_type_msg_int :
  detect_backend QueryNone (SelObject {| ob_type := Foreign "int"; ob_attrs := [] |}) =
  Raise (TypeError
    "Wrong backend type. Expected None, str or DisplayBackend, got <class 'int'>.").
Proof. reflexivity. Qed.

Example detect_terminal :
  detect_backend (QueryShell "TerminalInteractiveShell") SelNone =
  Ok (Fresh (new CLIBackend)).
Proof. reflexivity. Qed.

Example detect_zmq :
  detect_backend (QueryShell "ZMQInteractiveShell") SelNone =
  Ok (Fresh (new JupyterBackend)).
Proof. reflexivity. Qed.

(** ** The output trace *)

Lemma skipn_length_app {A} (l r : list A) : skipn (length l) (l ++ r) = r.
Proof. induction l as [|a l IH]; simpl; auto. Qed.

Lemma emitted_extends (w w' : host) (evs : list event) :
  output w' = output w ++ evs -> emitted w w' = evs.
Proof. unfold emitted. intros ->. apply skipn_length_app. Qed.

Lemma emitted_refl (w : host) : emitted w w = [].
Proof. apply emitted_extends. now rewrite app_nil_r. Qed.

Lemma shown_from_app (acc : option value) (h : DisplayHandle) (l r : list event) :
  shown_from acc h (l ++ r) = shown_from (shown_from acc h l) h r.
Proof.
  revert acc. induction l as [|e l IH]; intros acc; simpl; auto.
  destruct e; apply IH.
Qed.

Lemma reserved_app (l r : list event) :
  reserved (l ++ r) = reserved l + reserved r.
Proof. unfold reserved. now rewrite filter_app, length_app. Qed.

(** ** One call on a notebook-family instance *)

Lemma display_notebook (self : instance) (obj : value) (w : host) :
  notebook_family self ->
  let h := handle_for self w in
  let obj' := _handle_input (class_of self) obj in
  fst (display self obj w) = with_ref self h /\
  next_display_id (snd (display self obj w)) =
    (match _display_ref self with
     | Some _ => next_display_id w
     | None => S (next_display_id w)
     end) /\
  output (snd (display self obj w)) =
    output w
      ++ (match _display_ref self with Some _ => [] | None => [Reserve h] end)
      ++ (if is_None obj' then [] else [Update h obj']).
Proof.
  unfold notebook_family, handle_for, with_ref.
  destruct self as [c r], w as [n tr]; simpl.
  destruct c; simpl; try discriminate; intros _;
    destruct r as [h0|]; unfold display, bind, ret, display_new_id, emit; simpl;
    match goal with
    | |- context [is_None ?o] => destruct (is_None o)
    end; simpl; rewrite ?app_nil_r, <- ?app_assoc; auto.
Qed.

Lemma clear_display_notebook (self : instance) (w : host) :
  clear_display self w =
    (if can_update (class_of self)
     then match _display_ref self with
          | Some _ => Raised update_missing_obj self
          | None => Returned self
          end
     else Returned self, w).
Proof. destruct self as [c r]. destruct c, r; reflexivity. Qed.

Lemma clear_output_notebook (self : instance) (w : host) :
  fst (clear_output self w) = self /\
  next_display_id (snd (clear_output self w)) = next_display_id w /\
  output (snd (clear_output self w)) =
    output w ++ (if can_update (class_of self) then [ClearOutput true] else []).
Proof.
  destruct self as [c r], w as [n tr].
  destruct c; simpl; rewrite ?app_nil_r; auto.
Qed.

Lemma perform_display (self : instance) (obj : value) (w : host) :
  perform self (Display obj) w =
    (Returned (fst (display self obj w)), snd (display self obj w)).
Proof. cbn. unfold bind, ret. now destruct (display self obj w). Qed.

Lemma perform_clear_output (self : instance) (w : host) :
  perform self ClearOutputCall w =
    (Returned (fst (clear_output self w)), snd (clear_output self w)).
Proof. cbn. unfold bind, ret. now destruct (clear_output self w). Qed.

(** ** A sequence of calls *)

Lemma run_cons (self : instance) (c : call) (cs : list call) (w : host) :
  run self (c :: cs) w =
    match fst (perform self c w) with
    | Returned self' => run self' cs (snd (perform self c w))
    | Raised e self' => (Raised e self', snd (perform self c w))
    end.
Proof. simpl. unfold bind. now destruct (perform self c w) as [[s'|e s'] w']. Qed.

Lemma run_app (self : instance) (a b : list call) (w : host) :
  run self (a ++ b) w =
    match fst (run self a w) with
    | Returned self' => run self' b (snd (run self a w))
    | Raised e self' => (Raised e self', snd (run self a w))
    end.
Proof.
  revert self w. induction a as [|c a IH]; intros self w.
  - reflexivity.
  - rewrite <- app_comm_cons, !run_cons.
    destruct (fst (perform self c w)) as [s'|e s']; [apply IH | reflexivity].
Qed.

Lemma run_app_returned (self self' : instance) (a b : list call) (w : host) :
  fst (run self a w) = Returned self' ->
  run self (a ++ b) w = run self' b (snd (run self a w)).
Proof. intros H. now rewrite run_app, H. Qed.

Lemma run_app_raised (self self' : instance) (e : exn) (a b : list call) (w : host) :
  fst (run self a w) = Raised e self' ->
  run self (a ++ b) w = run self a w.
Proof.
  intros H. rewrite run_app, H.
  now rewrite (surjective_pairing (run self a w)), H.
Qed.

Lemma only_into_app (h : DisplayHandle) (l r : list event) :
  only_into h l -> only_into h r -> only_into h (l ++ r).
Proof. unfold only_into. intros. apply Forall_app. now split. Qed.

Lemma perform_holding (self : instance) (h : DisplayHandle) (c : call) (w : host) :
  notebook_family self -> _display_ref self = Some h ->
  exists evs,
    fst (perform self c w) = ends_holding self (is_ClearDisplay c) /\
    next_display_id (snd (perform self c w)) = next_display_id w /\
    output (snd (perform self c w)) = output w ++ evs /\
    reserved evs = 0 /\ only_into h evs.
Proof.
  intros Hnb Href. destruct c as [obj| |]; cbn [is_ClearDisplay ends_holding].
  - rewrite perform_display. cbn [fst snd].
    destruct (display_notebook self obj w Hnb) as (Hs & Hn & Ho).
    unfold handle_for, with_ref in *. rewrite Href in *. simpl in Ho.
    eexists. split; [|split; [exact Hn | split; [exact Ho | split]]].
    + rewrite Hs. destruct self; simpl in *; now subst.
    + now destruct (is_None _).
    + destruct (is_None _); repeat constructor.
      simpl. now intros h' [= <-].
  - cbn [perform]. rewrite clear_display_notebook, Hnb, Href. cbn [fst snd].
    exists []. rewrite app_nil_r. repeat split. constructor.
  - rewrite perform_clear_output. cbn [fst snd].
    destruct (clear_output_notebook self w) as (Hs & Hn & Ho).
    rewrite Hnb in Ho.
    eexists. split; [now rewrite Hs | split; [exact Hn | split; [exact Ho | split]]].
    + reflexivity.
    + repeat constructor. simpl. discriminate.
Qed.

Lemma run_holding (self : instance) (h : DisplayHandle) (cs : list call) (w : host) :
  notebook_family self -> _display_ref self = Some h ->
  exists evs,
    run_leaves self cs w (ends_holding self (existsb is_ClearDisplay cs)) evs /\
    reserved evs = 0 /\ only_into h evs.
Proof.
  intros Hnb Href. revert w. induction cs as [|c cs IH]; intros w.
  - exists []. unfold run_leaves. simpl. rewrite app_nil_r, Nat.add_0_r.
    repeat split; try reflexivity; apply Forall_nil.
  - destruct (perform_holding self h c w Hnb Href) as (e1 & Hs & Hn & Ho & Hr & Hi).
    unfold run_leaves. rewrite run_cons, Hs. cbn [existsb].
    destruct (is_ClearDisplay c); cbn [ends_holding orb fst snd].
    + exists e1. rewrite Hr, Nat.add_0_r. repeat split; auto.
    + destruct (IH (snd (perform self c w))) as (e2 & (Hs2 & Hn2 & Ho2) & Hr2 & Hi2).
      exists (e1 ++ e2). rewrite reserved_app, Hr, Hr2 in *.
      split; [split; [exact Hs2 | split] | split].
      * rewrite Hn2, Hn. lia.
      * rewrite Ho2, Ho. now rewrite app_assoc.
      * reflexivity.
      * now apply only_into_app.
Qed.







(** ** Strings *)

Lemma lower_char_letter (a : ascii) :
  (97 <=? nat_of_ascii a) && (nat_of_ascii a <=? 122) = true ->
  PyStr.lower_char a = a /\ PyStr.lower_char (PyStr.upper_ascii_char a) = a.
Proof.
  destruct a as [[] [] [] [] [] [] [] []]; vm_compute; intros H;
    first [discriminate H | split; reflexivity].
Qed.

Lemma case_variant_lower (ident s : string) :
  PyStr.lower_ident ident = true -> PyStr.case_variant s ident ->
  PyStr.lower s = ident.
Proof.
  revert s. induction ident as [|k ident IH]; intros s Hid Hcv.
  - destruct s; [reflexivity | contradiction].
  - destruct s as [|c s]; [contradiction|].
    simpl in Hid. apply andb_true_iff in Hid as [Hk Hid].
    destruct Hcv as [Hc Hcv]. simpl.
    rewrite (IH s Hid Hcv).
    destruct (lower_char_letter k Hk) as [H1 H2].
    destruct Hc as [-> | ->]; now rewrite ?H1, ?H2.
Qed.

Lemma prefix_app (sub a b : string) :
  prefix sub a = true -> prefix sub (a ++ b)%string = true.
Proof.
  revert a. induction sub as [|c sub IH]; intros a.
  - intros _. now destruct (a ++ b)%string.
  - destruct a as [|c' a]; simpl; [intros H; discriminate H|].
    destruct (Ascii.ascii_dec c c'); [apply IH | intros H; discriminate H].
Qed.

Lemma contains_app_l (sub a b : string) :
  PyStr.contains sub a = true -> PyStr.contains sub (a ++ b)%string = true.
Proof.
  induction a as [|c a IH]; simpl.
  - rewrite orb_false_r. intros H.
    destruct sub; [|discriminate]. now destruct b.
  - intros H. apply orb_true_iff in H as [H | H]; apply orb_true_iff.
    + left. exact (prefix_app sub (String c a) b H).
    + right. now apply IH.
Qed.

Lemma contains_app_r (sub a b : string) :
  PyStr.contains sub b = true -> PyStr.contains sub (a ++ b)%string = true.
Proof.
  intros H. induction a as [|c a IH]; simpl; auto.
  rewrite IH. apply orb_true_r.
Qed.

(** ** The registry as a dict *)

Lemma dict_get_None {V} (d : dict V) (k : string) :
  dict_get d k = None <-> ~ In k (keys d).
Proof.
  induction d as [|[k' v] d IH]; simpl.
  - tauto.
  - destruct (String.eqb_spec k' k) as [-> | Hne].
    + split; [discriminate | intros H; exfalso; apply H; now left].
    + rewrite IH. split.
      * intros H [Heq | Hin]; [now apply Hne | now apply H].
      * intros H Hin. apply H. now right.
Qed.

Lemma dict_get_Some {V} (d : dict V) (k : string) (v : V) :
  dict_get d k = Some v -> In (k, v) d.
Proof.
  induction d as [|[k' v'] d IH]; simpl; [discriminate|].
  destruct (String.eqb_spec k' k) as [-> | Hne].
  - intros [= ->]. now left.
  - intros H. right. now apply IH.
Qed.

(** Every class is registered under its own [id]. *)
Lemma backends_get_id (k : string) (c : backend_class) :
  dict_get backends k = Some c -> id c = k.
Proof.
  intros H. apply dict_get_Some in H.
  repeat (destruct H as [[= <- <-] | H]; [reflexivity|]).
  contradiction.
Qed.

Lemma detect_string (q : shell_query) (s : string) :
  (In (PyStr.lower s) (keys backends) ->
     exists c, detect_backend q (SelStr s) = Ok (Fresh (new c)) /\
               id c = PyStr.lower s) /\
  (~ In (PyStr.lower s) (keys backends) ->
     detect_backend q (SelStr s) =
       Raise (ValueError (wrong_id_msg (PyStr.lower s)))).
Proof.
  unfold detect_backend.
  destruct (dict_get backends (PyStr.lower s)) as [c|] eqn:E; split.
  - intros _. exists c. split; [reflexivity | now apply backends_get_id].
  - intros Hn. exfalso. apply dict_get_None in Hn. congruence.
  - intros Hin. exfalso. now apply (proj1 (dict_get_None _ _) E).
  - reflexivity.
Qed.

Lemma host_eq (w w' : host) :
  next_display_id w = next_display_id w' -> output w = output w' -> w = w'.
Proof. destruct w, w'; simpl; now intros -> ->. Qed.

(** * The claims *)

(** ** Empty tabular values *)

(** C1, as stated, fails: "for every backend, [display] of an empty tabular
    value renders nothing".  A fresh [JupyterBackend] given an empty
    [DataFrame] reserves a handle and pushes the frame into it. *)
Lemma empty_frame_pushed_by_notebook :
  ~ (forall (self : instance) (obj : value) (w : host),
       is_empty_tabular obj = true ->
       forallb (fun e => negb (renders e))
               (emitted w (snd (display self obj w))) = true).
Proof.
  intros H.
  specialize (H (new JupyterBackend) (VDataFrame empty_frame) fresh_host eq_refl).
  vm_compute in H. discriminate H.
Qed.

(** C1, amended: [display] of an empty tabular value is a no-op on the
    backends that cannot update ([SilentBackend], [CLIBackend]): the
    instance and the host are left as they were.  The notebook-family
    backends do not test for emptiness: they push the value itself into
    their handle (after reserving the handle, if they hold none). *)
Theorem display_empty_tabular (self : instance) (obj : value) (w : host) :
  is_empty_tabular obj = true ->
  if can_update (class_of self)
  then emitted w (snd (display self obj w)) =
         (match _display_ref self with
          | Some _ => []
          | None => [Reserve (handle_for self w)]
          end) ++ [Update (handle_for self w) obj]
  else display self obj w = (self, w).
Proof.
  intros He. destruct (can_update (class_of self)) eqn:Hc.
  - destruct (display_notebook self obj w Hc) as (_ & _ & Ho).
    apply emitted_extends. rewrite Ho. f_equal. f_equal.
    assert (Hin : _handle_input (class_of self) obj = obj).
    { destruct (class_of self); try discriminate Hc; destruct obj;
        try discriminate He; reflexivity. }
    rewrite Hin. destruct obj; try discriminate He; reflexivity.
  - destruct self as [c r]. simpl in *.
    destruct c; try discriminate Hc; [reflexivity|].
    unfold display. simpl.
    destruct obj; try discriminate He; simpl in *; now rewrite He.
Qed.

Lemma display_empty_tabular_witness :
  display (new CLIBackend) (VDataFrame empty_frame) fresh_host =
  (new CLIBackend, fresh_host).
Proof.
  exact (display_empty_tabular (new CLIBackend) (VDataFrame empty_frame)
           fresh_host eq_refl).
Defined.

(** ** The identifiers of the registry *)

(** C2, as stated, fails: the strings that resolve are not those whose
    lower-case form is one of "cli", "notebook", "hosted", "silent".
    The string "notebook" does not resolve. *)
Lemma notebook_is_not_an_identifier :
  ~ (forall (q : shell_query) (s : string),
       (exists b, detect_backend q (SelStr s) = Ok b) <->
       In (PyStr.lower s) ["cli"; "notebook"; "hosted"; "silent"]).
Proof.
  intros H. destruct (H QueryNone "notebook") as [_ H2].
  destruct H2 as [b Hb].
  - simpl. auto.
  - vm_compute in Hb. discriminate Hb.
Qed.

(** C2, amended: the key set of the registry is "cli", "jupyter", "colab",
    "silent" (the [id] attributes of the four classes), and a string
    resolves to a backend exactly when its lower-case form is one of these
    four. *)
Theorem registry_identifiers :
  keys backends = ["cli"; "jupyter"; "colab"; "silent"] /\
  keys backends = map id backends_list /\
  forall (q : shell_query) (s : string),
    (exists b, detect_backend q (SelStr s) = Ok b) <->
    In (PyStr.lower s) ["cli"; "jupyter"; "colab"; "silent"].
Proof.
  split; [reflexivity|]. split; [reflexivity|].
  intros q s. change ["cli"; "jupyter"; "colab"; "silent"] with (keys backends).
  destruct (detect_string q s) as [Hin Hout]. split.
  - intros [b Hb].
    destruct (dict_get backends (PyStr.lower s)) as [c|] eqn:E.
    + intros. destruct (In_dec string_dec (PyStr.lower s) (keys backends)) as [Hi|Hn];
        [exact Hi|].
      apply dict_get_None in Hn. congruence.
    + apply dict_get_None in E. rewrite (Hout E) in Hb. discriminate Hb.
  - intros Hi. destruct (Hin Hi) as (c & Hc & _). eauto.
Qed.

(** ** The handle of a notebook-family backend *)



(** ** Displaying [None] *)

Lemma handle_input_None (c : backend_class) : _handle_input c PyNone = PyNone.
Proof. now destruct c. Qed.

(** C4: on a notebook-family backend, [display(None)] after [display(obj)]
    changes neither the instance nor the host: nothing is pushed, so every
    handle shows what it showed before.  When the first call pushed
    something (the normalised [obj] is not [None]), the handle of the
    instance still shows it; on [JupyterBackend] that is [obj] itself. *)
Theorem display_None_keeps_content (self : instance) (obj : value) (w : host) :
  notebook_family self ->
  let s1 := fst (display self obj w) in
  let w1 := snd (display self obj w) in
  let s2 := fst (display s1 PyNone w1) in
  let w2 := snd (display s1 PyNone w1) in
  let h := handle_for self w in
  s2 = s1 /\ w2 = w1 /\
  emitted w1 w2 = [] /\
  (forall h', shown h' w2 = shown h' w1) /\
  _display_ref s2 = Some h /\
  (is_None (_handle_input (class_of self) obj) = false ->
     shown h w2 = Some (_handle_input (class_of self) obj)) /\
  (class_of self = JupyterBackend -> is_None obj = false ->
     shown h w2 = Some obj).
Proof.
  intros Hnb s1 w1 s2 w2 h.
  destruct (display_notebook self obj w Hnb) as (Hs1 & Hn1 & Ho1).
  fold s1 w1 h in Hs1, Hn1, Ho1.
  assert (Hnb1 : notebook_family s1) by (rewrite Hs1; exact Hnb).
  destruct (display_notebook s1 PyNone w1 Hnb1) as (Hs2 & Hn2 & Ho2).
  fold s2 w2 in Hs2, Hn2, Ho2.
  assert (Hr1 : _display_ref s1 = Some h) by now rewrite Hs1.
  unfold handle_for in Hs2, Ho2. rewrite Hr1 in Hs2, Hn2, Ho2.
  rewrite handle_input_None in Ho2. simpl in Ho2. rewrite app_nil_r in Ho2.
  assert (Hs : s2 = s1).
  { rewrite Hs2, Hs1. reflexivity. }
  assert (Hw : w2 = w1) by now apply host_eq.
  assert (Hshown : is_None (_handle_input (class_of self) obj) = false ->
                   shown h w1 = Some (_handle_input (class_of self) obj)).
  { intros Hnn. unfold shown. rewrite Ho1, Hnn, app_assoc, shown_from_app.
    simpl. now rewrite Nat.eqb_refl. }
  repeat split.
  - exact Hs.
  - exact Hw.
  - rewrite Hw. apply emitted_refl.
  - intros h'. now rewrite Hw.
  - now rewrite Hs.
  - rewrite Hw. exact Hshown.
  - intros Hc Hnn. rewrite Hw. rewrite Hc in Hshown. simpl in Hshown. auto.
Qed.

Lemma display_None_keeps_content_witness :
  shown 0 (snd (display (fst (display (new JupyterBackend)
                                       (VDataFrame sample_frame) fresh_host))
                        PyNone
                        (snd (display (new JupyterBackend)
                                      (VDataFrame sample_frame) fresh_host))))
  = Some (VDataFrame sample_frame).
Proof.
  exact (proj2 (proj2 (proj2 (proj2 (proj2 (proj2
           (display_None_keeps_content (new JupyterBackend)
              (VDataFrame sample_frame) fresh_host eq_refl))))))
           eq_refl eq_refl).
Defined.

(** ** Detection without a selector *)

Lemma detect_None_total (q : shell_query) :
  exists c : backend_class, detect_backend q SelNone = Ok (Fresh (new c)).
Proof.
  destruct q as [| |name]; simpl.
  - now exists CLIBackend.
  - now exists CLIBackend.
  - destruct (PyStr.contains "Terminal" name); simpl.
    + now exists CLIBackend.
    + destruct (PyStr.contains "google.colab" name); eauto.
Qed.

(** C5: with no selector, a host query that raises or returns no shell
    resolves to a fresh [CLIBackend]; and whatever the query does,
    [detect_backend] returns a freshly constructed backend, never an
    error. *)
Theorem detect_absent_selector :
  detect_backend QueryRaises SelNone = Ok (Fresh (new CLIBackend)) /\
  detect_backend QueryNone SelNone = Ok (Fresh (new CLIBackend)) /\
  forall q : shell_query,
    exists c : backend_class, detect_backend q SelNone = Ok (Fresh (new c)).
Proof.
  split; [reflexivity|]. split; [reflexivity|].
  exact detect_None_total.
Qed.

(** ** Lookup by identifier *)

(** C6: the registry has four identifiers, and for each of them, a selector
    string that spells it in any letter case resolves to a freshly
    constructed backend whose [id] is the identifier, which is the
    lower-cased selector. *)
Theorem lookup_any_letter_case (q : shell_query) (k s : string) :
  In k (keys backends) -> PyStr.case_variant s k ->
  length (keys backends) = 4 /\
  exists c : backend_class,
    detect_backend q (SelStr s) = Ok (Fresh (new c)) /\
    id c = k /\ id c = PyStr.lower s.
Proof.
  intros Hin Hcv. split; [reflexivity|].
  assert (Hid : PyStr.lower_ident k = true).
  { simpl in Hin. repeat (destruct Hin as [<- | Hin]; [reflexivity|]).
    contradiction. }
  pose proof (case_variant_lower k s Hid Hcv) as Hl.
  destruct (proj1 (detect_string q s)) as (c & Hc & Hi).
  - now rewrite Hl.
  - exists c. repeat split; auto. congruence.
Qed.

Lemma lookup_any_letter_case_witness :
  length (keys backends) = 4 /\
  exists c : backend_class,
    detect_backend QueryNone (SelStr "JuPyTeR") = Ok (Fresh (new c)) /\
    id c = "jupyter" /\ id c = PyStr.lower "JuPyTeR".
Proof.
  apply (lookup_any_letter_case QueryNone "jupyter" "JuPyTeR").
  - simpl. right. left. reflexivity.
  - simpl. repeat split; first [left; reflexivity | right; reflexivity].
Defined.

(** ** The two failures of the detector *)

Lemma wrong_id_msg_lists_keys (backend_id : string) :
  Forall (fun k => PyStr.contains (PyStr.repr k) (wrong_id_msg backend_id) = true)
         (keys backends).
Proof.
  rewrite backends_keys. unfold wrong_id_msg.
  repeat constructor;
    apply (contains_app_r _ "Wrong backend id. Got ");
    apply (contains_app_r _ backend_id); reflexivity.
Qed.

Lemma wrong_type_msg_names_forms (c : pyclass) :
  PyStr.contains "None" (wrong_type_msg c) = true /\
  PyStr.contains "str" (wrong_type_msg c) = true /\
  PyStr.contains "DisplayBackend" (wrong_type_msg c) = true.
Proof.
  unfold wrong_type_msg.
  repeat split; apply contains_app_l; reflexivity.
Qed.

(** C7: [detect_backend] raises in exactly two cases.  A string whose
    lower-case form is not a key of the registry raises a [ValueError]
    whose message quotes every key of the registry; an object that is not
    an instance of [DisplayBackend] (the selector then being neither [None]
    nor a string) raises a [TypeError] whose message names [None], [str]
    and [DisplayBackend].  Every other selector yields a backend. *)
Theorem detect_backend_failures (q : shell_query) (sel : selector) :
  (forall e : exn,
     detect_backend q sel = Raise e <->
     (exists s, sel = SelStr s /\ ~ In (PyStr.lower s) (keys backends) /\
                e = ValueError (wrong_id_msg (PyStr.lower s))) \/
     (exists o, sel = SelObject o /\ isinstance_DisplayBackend o = false /\
                e = TypeError (wrong_type_msg (ob_type o)))) /\
  ((exists b, detect_backend q sel = Ok b) <->
     sel = SelNone \/
     (exists s, sel = SelStr s /\ In (PyStr.lower s) (keys backends)) \/
     (exists o, sel = SelObject o /\ isinstance_DisplayBackend o = true)) /\
  (forall backend_id,
     Forall (fun k => PyStr.contains (PyStr.repr k) (wrong_id_msg backend_id) = true)
            (keys backends)) /\
  (forall c,
     PyStr.contains "None" (wrong_type_msg c) = true /\
     PyStr.contains "str" (wrong_type_msg c) = true /\
     PyStr.contains "DisplayBackend" (wrong_type_msg c) = true).
Proof.
  split; [|split; [|split]].
  - intros e. destruct sel as [|s|o].
    + destruct (detect_None_total q) as [c Hc]. rewrite Hc.
      split; [discriminate|].
      intros [(s & Hs & _) | (o & Ho & _)]; discriminate.
    + destruct (detect_string q s) as [Hin Hout].
      destruct (In_dec string_dec (PyStr.lower s) (keys backends)) as [Hi|Hn].
      * destruct (Hin Hi) as (c & Hc & _). rewrite Hc.
        split; [discriminate|].
        intros [(s' & [= <-] & Hn & _) | (o & Ho & _)];
          [contradiction | discriminate].
      * rewrite (Hout Hn). split.
        -- intros [= <-]. left. eauto.
        -- intros [(s' & [= <-] & _ & ->) | (o & Ho & _)];
             [reflexivity | discriminate].
    + simpl. destruct (isinstance_DisplayBackend o) eqn:Ei; split.
      * discriminate.
      * intros [(s & Hs & _) | (o' & [= <-] & Hf & _)];
          [discriminate | congruence].
      * intros [= <-]. right. eauto.
      * intros [(s & Hs & _) | (o' & [= <-] & _ & ->)];
          [discriminate | reflexivity].
  - destruct sel as [|s|o].
    + split; [auto|]. intros _.
      destruct (detect_None_total q) as [c Hc]. eauto.
    + destruct (detect_string q s) as [Hin Hout].
      destruct (In_dec string_dec (PyStr.lower s) (keys backends)) as [Hi|Hn].
      * split; [intros _; right; left; eauto|].
        intros _. destruct (Hin Hi) as (c & Hc & _). eauto.
      * rewrite (Hout Hn). split.
        -- intros [b Hb]. discriminate Hb.
        -- intros [H | [(s' & [= <-] & Hi) | (o & Ho & _)]];
             [discriminate | contradiction | discriminate].
    + simpl. destruct (isinstance_DisplayBackend o) eqn:Ei; split.
      * intros _. right. right. eauto.
      * eauto.
      * intros [b Hb]. discriminate Hb.
      * intros [H | [(s & Hs & _) | (o' & [= <-] & Ht)]];
          [discriminate | discriminate | congruence].
  - exact wrong_id_msg_lists_keys.
  - exact wrong_type_msg_names_forms.
Qed.

(** ** The command-line backend *)

(** C8: [CLIBackend.display] works on the plain value, which is the frame
    of a [Styler] and the value itself otherwise.  It does nothing when the
    plain value is an empty [Series] or [DataFrame], or [None].  Otherwise
    it calls the value's [show] when the value has that attribute, and
    nothing else; without the attribute it pretty-prints the value.  The
    instance is unchanged. *)
Theorem cli_display (r : option DisplayHandle) (obj : value) (w : host) :
  let self := {| class_of := CLIBackend; _display_ref := r |} in
  let plain := match obj with VStyler s => VDataFrame (data s) | _ => obj end in
  fst (display self obj w) = self /\
  emitted w (snd (display self obj w)) =
    if is_empty_tabular plain || is_None plain then []
    else if hasattr plain "show" then [Show plain] else [Pprint plain].
Proof.
  intros self plain. unfold display. simpl class_of. unfold _handle_input.
  fold plain. destruct (is_empty_tabular plain) eqn:He; simpl.
  - split; [reflexivity | apply emitted_refl].
  - destruct (is_None plain) eqn:Hn; simpl.
    + split; [reflexivity | apply emitted_refl].
    + destruct (hasattr plain "show"); split; try reflexivity;
        now apply emitted_extends.
Qed.

(** ** Stylers on the notebook backends *)

(** C9: given a [Styler], [ColabBackend.display] pushes
    [HTML(styler.to_html())] into its handle and [JupyterBackend.display]
    pushes the styler itself; on every value that is not a [Styler] the
    [_handle_input] of both classes returns the value. *)
Theorem styler_normalization (s : Styler) (r : option DisplayHandle) (w : host) :
  let colab := {| class_of := ColabBackend; _display_ref := r |} in
  let jupyter := {| class_of := JupyterBackend; _display_ref := r |} in
  let h := match r with Some h => h | None => next_display_id w end in
  let reserve := match r with Some _ => [] | None => [Reserve h] end in
  emitted w (snd (display colab (VStyler s) w)) =
    reserve ++ [Update h (HTML (to_html s))] /\
  emitted w (snd (display jupyter (VStyler s) w)) =
    reserve ++ [Update h (VStyler s)] /\
  forall obj : value,
    is_Styler obj = false ->
    _handle_input ColabBackend obj = obj /\
    _handle_input JupyterBackend obj = obj.
Proof.
  intros colab jupyter h reserve. split; [|split].
  - apply emitted_extends.
    destruct (display_notebook colab (VStyler s) w eq_refl) as (_ & _ & Ho).
    exact Ho.
  - apply emitted_extends.
    destruct (display_notebook jupyter (VStyler s) w eq_refl) as (_ & _ & Ho).
    exact Ho.
  - intros obj Hs. destruct obj; try discriminate Hs; now split.
Qed.

(** ** Nominal acceptance of backend objects *)

(** C10: an object that has [display], [clear_display] and [clear_output]
    but whose class does not derive from [DisplayBackend] is rejected with
    the [TypeError]; it is not passed through. *)
Theorem detect_backend_nominal (q : shell_query) (o : object) :
  implements_contract o = true ->
  isinstance_DisplayBackend o = false ->
  detect_backend q (SelObject o) =
    Raise (TypeError (wrong_type_msg (ob_type o))) /\
  detect_backend q (SelObject o) <> Ok (Same o).
Proof.
  intros _ Hi. simpl. rewrite Hi. split; [reflexivity | discriminate].
Qed.

Lemma detect_backend_nominal_witness :
  detect_backend QueryNone (SelObject duck) =
    Raise (TypeError
      "Wrong backend type. Expected None, str or DisplayBackend, got <class '__main__.Duck'>.")
  /\ detect_backend QueryNone (SelObject duck) <> Ok (Same duck).
Proof.
  exact (detect_backend_nominal QueryNone duck eq_refl eq_refl).
Defined.

(** * Further properties *)

(** ** Backends that cannot update *)

Lemma perform_stateless (self : instance) (c : call) (w : host) :
  can_update (class_of self) = false ->
  perform self c w =
    (Returned self, {| next_display_id := next_display_id w;
                       output := output w ++ events_of self c |}).
Proof.
  destruct self as [k r], w as [n tr].
  destruct k; try discriminate; intros _; destruct c as [obj| |];
    unfold events_of, perform, display, clear_display, clear_output;
    cbn [class_of]; unfold bind, ret; cbn [next_display_id output snd fst];
    rewrite ?app_nil_r; try reflexivity.
  destruct (is_None (_handle_input CLIBackend obj)).
  - cbn. now rewrite app_nil_r.
  - destruct (hasattr (_handle_input CLIBackend obj) "show"); reflexivity.
Qed.

Lemma run_stateless (self : instance) (cs : list call) (w : host) :
  can_update (class_of self) = false ->
  run self cs w =
    (Returned self, {| next_display_id := next_display_id w;
                       output := output w ++ flat_map (events_of self) cs |}).
Proof.
  intros Hc. revert w. induction cs as [|c cs IH]; intros w.
  - destruct w. simpl. now rewrite app_nil_r.
  - rewrite run_cons, (perform_stateless self c w Hc). cbn [fst snd].
    rewrite IH. cbn [next_display_id output flat_map].
    now rewrite app_assoc.
Qed.

Lemma events_of_cli (r : option DisplayHandle) (c : call) :
  Forall (fun e => cli_event e = true)
         (events_of {| class_of := CLIBackend; _display_ref := r |} c).
Proof.
  destruct c as [obj| |]; [|constructor|constructor].
  unfold events_of. rewrite perform_display. cbn [snd].
  unfold display. cbn [class_of]. unfold _handle_input.
  set (plain := match obj with VStyler s => VDataFrame (data s) | _ => obj end).
  assert (Hst : is_Styler plain = false) by (subst plain; now destruct obj).
  destruct (is_empty_tabular plain) eqn:He; cbn; [constructor|].
  destruct (is_None plain) eqn:Hn; cbn; [constructor|].
  destruct (hasattr plain "show") eqn:Hs; cbn;
    (constructor; [|constructor]); cbn; unfold printable;
    now rewrite He, Hn, Hst, ?Hs.
Qed.

Lemma events_of_cli_length (r : option DisplayHandle) (c : call) :
  length (events_of {| class_of := CLIBackend; _display_ref := r |} c)
  <= (if is_Display c then 1 else 0).
Proof.
  destruct c as [obj| |]; [|apply Nat.le_refl|apply Nat.le_refl].
  unfold events_of. rewrite perform_display. cbn [snd].
  unfold display. cbn [class_of is_Display].
  destruct (is_None (_handle_input CLIBackend obj));
    [unfold ret; cbn; lia|].
  destruct (hasattr (_handle_input CLIBackend obj) "show");
    unfold bind, emit, ret; cbn; lia.
Qed.

Lemma events_of_clear (self : instance) (c : call) :
  can_update (class_of self) = false -> is_Display c = false ->
  events_of self c = [].
Proof.
  destruct self as [k r]. destruct k; try discriminate; intros _;
    destruct c; try discriminate; reflexivity.
Qed.

Lemma events_of_silent (r : option DisplayHandle) (c : call) :
  events_of {| class_of := SilentBackend; _display_ref := r |} c = [].
Proof. now destruct c. Qed.

Lemma flat_map_nil {A B} (f : A -> list B) (l : list A) :
  (forall a, In a l -> f a = []) -> flat_map f l = [].
Proof.
  induction l as [|a l IH]; intros H; simpl; auto.
  rewrite (H a (or_introl eq_refl)), IH; auto.
  intros b Hb. apply H. now right.
Qed.

(** X1: on a [SilentBackend], every sequence of [display], [clear_display]
    and [clear_output] calls, with any values, returns and leaves the
    instance and the host exactly as they were. *)
Theorem silent_run_noop (r : option DisplayHandle) (cs : list call) (w : host) :
  run {| class_of := SilentBackend; _display_ref := r |} cs w =
  (Returned {| class_of := SilentBackend; _display_ref := r |}, w).
Proof.
  rewrite run_stateless by reflexivity.
  rewrite flat_map_nil by (intros; apply events_of_silent).
  destruct w. cbn. now rewrite app_nil_r.
Qed.



(** X3: on a backend with [can_update = False], [clear_display] and
    [clear_output] have no effect at all: dropping them from a sequence of
    calls gives the same instance and the same host. *)
Theorem clear_calls_removable (self : instance) (cs : list call) (w : host) :
  can_update (class_of self) = false ->
  run self cs w = run self (filter is_Display cs) w.
Proof.
  intros Hc. rewrite !run_stateless by exact Hc.
  assert (Hf : flat_map (events_of self) cs =
               flat_map (events_of self) (filter is_Display cs)).
  { induction cs as [|c cs IH]; [reflexivity|]. simpl.
    destruct (is_Display c) eqn:Hd; simpl.
    - now rewrite IH.
    - now rewrite (events_of_clear self c Hc Hd). }
  now rewrite Hf.
Qed.

Lemma clear_calls_removable_witness :
  run (new CLIBackend)
      [ClearOutputCall; Display (VDataFrame sample_frame); ClearDisplay] fresh_host =
  run (new CLIBackend) [Display (VDataFrame sample_frame)] fresh_host.
Proof.
  exact (clear_calls_removable (new CLIBackend)
           [ClearOutputCall; Display (VDataFrame sample_frame); ClearDisplay]
           fresh_host eq_refl).
Defined.

(** X4: whatever is called on a [CLIBackend], the host only ever receives
    [show()] of a value that has the attribute, or [pprint] of a value that
    has not; the value is never [None], never a [Styler] and never an empty
    [Series] or [DataFrame]; and there is at most one such event per
    [display] call. *)
Theorem cli_prints_only_printable (self : instance) (cs : list call) (w : host) :
  class_of self = CLIBackend ->
  Forall (fun e => cli_event e = true) (emitted w (snd (run self cs w))) /\
  length (emitted w (snd (run self cs w))) <= length (filter is_Display cs).
Proof.
  intros Hk. destruct self as [k r]. cbn in Hk. subst k.
  rewrite run_stateless by reflexivity. cbn [snd].
  rewrite (emitted_extends w _ (flat_map (events_of _) cs)) by reflexivity.
  split.
  - apply Forall_flat_map. apply Forall_forall. intros c _. apply events_of_cli.
  - induction cs as [|c cs IH]; [apply Nat.le_refl|].
    cbn [flat_map filter]. rewrite length_app.
    pose proof (events_of_cli_length r c) as Hl.
    destruct (is_Display c); cbn [length]; lia.
Qed.

Lemma cli_prints_only_printable_witness :
  Forall (fun e => cli_event e = true)
    (emitted fresh_host
       (snd (run (new CLIBackend)
                 [Display (VDataFrame empty_frame);
                  Display (VDataFrame sample_frame)] fresh_host))) /\
  length (emitted fresh_host
       (snd (run (new CLIBackend)
                 [Display (VDataFrame empty_frame);
                  Display (VDataFrame sample_frame)] fresh_host))) <= 2.
Proof.
  exact (cli_prints_only_printable (new CLIBackend)
           [Display (VDataFrame empty_frame); Display (VDataFrame sample_frame)]
           fresh_host eq_refl).
Defined.

(** ** Notebook-family backends, from any state *)

Lemma perform_notebook (self : instance) (c : call) (w : host) :
  notebook_family self ->
  exists evs,
    class_of (instance_of (fst (perform self c w))) = class_of self /\
    output (snd (perform self c w)) = output w ++ evs /\
    Forall (fun e => notebook_event e = true) evs /\
    length (filter is_ClearOutput evs) = (if is_ClearOutputCall c then 1 else 0).
Proof.
  intros Hnb. destruct c as [obj| |]; cbn [is_ClearOutputCall].
  - rewrite perform_display. cbn [fst snd instance_of].
    destruct (display_notebook self obj w Hnb) as (Hs & _ & Ho).
    eexists. split; [now rewrite Hs|]. split; [exact Ho|].
    destruct (_display_ref self), (is_None _); cbn;
      split; repeat constructor.
  - cbn [perform]. rewrite clear_display_notebook. cbn [fst snd].
    exists []. rewrite app_nil_r. split; [|repeat split; constructor].
    destruct (can_update _); [destruct (_display_ref self)|]; reflexivity.
  - rewrite perform_clear_output. cbn [fst snd instance_of].
    destruct (clear_output_notebook self w) as (Hs & _ & Ho).
    rewrite Hnb in Ho.
    eexists. split; [now rewrite Hs|]. split; [exact Ho|].
    cbn; split; repeat constructor.
Qed.

Lemma run_notebook (self : instance) (cs : list call) (w : host) :
  notebook_family self ->
  exists evs,
    class_of (instance_of (fst (run self cs w))) = class_of self /\
    output (snd (run self cs w)) = output w ++ evs /\
    Forall (fun e => notebook_event e = true) evs /\
    length (filter is_ClearOutput evs) <= length (filter is_ClearOutputCall cs) /\
    (is_Returned (fst (run self cs w)) = true ->
     length (filter is_ClearOutput evs) = length (filter is_ClearOutputCall cs)).
Proof.
  revert self w. induction cs as [|c cs IH]; intros self w Hnb.
  - exists []. cbn. rewrite app_nil_r. repeat split; constructor.
  - destruct (perform_notebook self c w Hnb) as (e1 & Hk1 & Ho1 & Hf1 & Hc1).
    rewrite run_cons.
    destruct (fst (perform self c w)) as [s'|e s'] eqn:Ep; cbn [instance_of] in Hk1.
    + assert (Hnb1 : notebook_family s') by (unfold notebook_family; now rewrite Hk1).
      destruct (IH s' (snd (perform self c w)) Hnb1)
        as (e2 & Hk2 & Ho2 & Hf2 & Hle & Hc2).
      exists (e1 ++ e2).
      split; [congruence|]. split; [now rewrite Ho2, Ho1, app_assoc|].
      split; [now apply Forall_app|].
      rewrite filter_app, length_app, Hc1. cbn [filter].
      destruct (is_ClearOutputCall c); cbn [length]; split; try lia;
        intros Hr; rewrite (Hc2 Hr); lia.
    + exists e1. cbn [fst snd instance_of is_Returned].
      split; [exact Hk1|]. split; [exact Ho1|]. split; [exact Hf1|].
      rewrite Hc1. cbn [filter].
      destruct (is_ClearOutputCall c); cbn [length]; split; try lia; discriminate.
Qed.

(** X5: whatever is called on a notebook-family backend, in whatever state
    it is, nothing is printed ([show] and [pprint] are never called), the
    cell is only ever cleared with [wait=True] and at most once per
    [clear_output] call, exactly once per call when the run returns (a call
    that raises ends the run before the later ones), and the class of the
    instance does not change. *)
Theorem notebook_trace_kinds (self : instance) (cs : list call) (w : host) :
  notebook_family self ->
  class_of (instance_of (fst (run self cs w))) = class_of self /\
  Forall (fun e => notebook_event e = true) (emitted w (snd (run self cs w))) /\
  length (filter is_ClearOutput (emitted w (snd (run self cs w)))) <=
    length (filter is_ClearOutputCall cs) /\
  (is_Returned (fst (run self cs w)) = true ->
   length (filter is_ClearOutput (emitted w (snd (run self cs w)))) =
     length (filter is_ClearOutputCall cs)).
Proof.
  intros Hnb.
  destruct (run_notebook self cs w Hnb) as (evs & Hk & Ho & Hf & Hle & Hc).
  rewrite (emitted_extends _ _ _ Ho). auto.
Qed.

Lemma notebook_trace_kinds_witness :
  length (filter is_ClearOutput
            (emitted fresh_host (snd (run (new JupyterBackend) quiet_calls fresh_host))))
  = 1.
Proof.
  exact (proj2 (proj2 (proj2
    (notebook_trace_kinds (new JupyterBackend) quiet_calls fresh_host eq_refl)))
    eq_refl).
Defined.

(** X6: a notebook-family instance that holds a handle keeps it through
    every sequence of calls: when the run ends the instance is as it was,
    no display id has been reserved, and every update has gone into the
    handle it held.  The run returns unless it contains a [clear_display],
    which raises and ends it. *)
Theorem handle_kept (self : instance) (h : DisplayHandle) (cs : list call) (w : host) :
  notebook_family self -> _display_ref self = Some h ->
  fst (run self cs w) =
    (if existsb is_ClearDisplay cs
     then Raised update_missing_obj self
     else Returned self) /\
  next_display_id (snd (run self cs w)) = next_display_id w /\
  reserved (emitted w (snd (run self cs w))) = 0 /\
  only_into h (emitted w (snd (run self cs w))).
Proof.
  intros Hnb Href.
  destruct (run_holding self h cs w Hnb Href) as (evs & (Hs & Hn & Ho) & Hr & Hi).
  rewrite (emitted_extends _ _ _ Ho), Hn, Hr. repeat split; auto.
Qed.

Lemma handle_kept_witness :
  fst (run {| class_of := JupyterBackend; _display_ref := Some 7 |}
           [Display (VDataFrame sample_frame); ClearOutputCall; Display PyNone]
           fresh_host)
  = Returned {| class_of := JupyterBackend; _display_ref := Some 7 |}.
Proof.
  exact (proj1 (handle_kept {| class_of := JupyterBackend; _display_ref := Some 7 |}
                  7 [Display (VDataFrame sample_frame); ClearOutputCall; Display PyNone]
                  fresh_host eq_refl eq_refl)).
Defined.

(** X7: on a notebook-family instance that holds a handle, [clear_display]
    raises the [TypeError] of [update()] called without [obj]; it sends
    nothing to the host, so the handle keeps showing what it showed, and
    it leaves the instance as it is.  A sequence of calls ends at its first
    [clear_display]: the calls after it are not made. *)
Theorem clear_display_raises (self : instance) (h : DisplayHandle) (w : host) :
  notebook_family self -> _display_ref self = Some h ->
  clear_display self w = (Raised update_missing_obj self, w) /\
  forall pre post : list call,
    existsb is_ClearDisplay pre = false ->
    run self (pre ++ ClearDisplay :: post) w =
      (Raised update_missing_obj self, snd (run self pre w)) /\
    shown h (snd (run self (pre ++ ClearDisplay :: post) w)) =
      shown h (snd (run self pre w)).
Proof.
  intros Hnb Href.
  assert (Hc : forall w0, clear_display self w0 = (Raised update_missing_obj self, w0)).
  { intros w0. now rewrite clear_display_notebook, Hnb, Href. }
  split; [apply Hc|]. intros pre post Hpre.
  destruct (run_holding self h pre w Hnb Href) as (evs & (Hs & _ & _) & _ & _).
  rewrite Hpre in Hs. cbn [ends_holding] in Hs.
  assert (Hrun : run self (pre ++ ClearDisplay :: post) w =
                 (Raised update_missing_obj self, snd (run self pre w))).
  { rewrite (run_app_returned _ _ _ _ _ Hs), run_cons. cbn [perform].
    now rewrite Hc. }
  split; [exact Hrun | now rewrite Hrun].
Qed.

Lemma clear_display_raises_witness :
  clear_display {| class_of := ColabBackend; _display_ref := Some 3 |} fresh_host =
  (Raised update_missing_obj {| class_of := ColabBackend; _display_ref := Some 3 |},
   fresh_host).
Proof.
  exact (proj1 (clear_display_raises
                  {| class_of := ColabBackend; _display_ref := Some 3 |} 3 fresh_host
                  eq_refl eq_refl)).
Defined.

(** X8: on a notebook-family backend, when a sequence of calls has
    returned, a following [display] of a value whose normalised form is not
    [None] returns with the instance holding a handle, and an update of
    that handle by the normalised value is the last thing the host
    received.  When the sequence has raised, the [display] is not made. *)
Theorem display_pushes_last (self : instance) (cs : list call) (obj : value) (w : host) :
  notebook_family self ->
  is_None (_handle_input (class_of self) obj) = false ->
  (is_Returned (fst (run self cs w)) = true ->
   exists h pre self',
     fst (run self (cs ++ [Display obj]) w) = Returned self' /\
     _display_ref self' = Some h /\
     emitted w (snd (run self (cs ++ [Display obj]) w)) =
       pre ++ [Update h (_handle_input (class_of self) obj)]) /\
  (is_Returned (fst (run self cs w)) = false ->
   run self (cs ++ [Display obj]) w = run self cs w).
Proof.
  intros Hnb Hn.
  destruct (run_notebook self cs w Hnb) as (e1 & Hk & Ho & _).
  destruct (fst (run self cs w)) as [s1|e s1] eqn:Er; cbn [instance_of] in Hk;
    split; intros Hr; try discriminate Hr.
  - set (w1 := snd (run self cs w)) in *.
    assert (Hnb1 : notebook_family s1) by (unfold notebook_family; now rewrite Hk).
    destruct (display_notebook s1 obj w1 Hnb1) as (Hs2 & _ & Ho2).
    rewrite Hk, Hn in Ho2.
    rewrite (run_app_returned _ _ _ _ _ Er). fold w1.
    rewrite run_cons, perform_display. cbn [fst snd run ret].
    exists (handle_for s1 w1),
           (e1 ++ match _display_ref s1 with
                  | Some _ => []
                  | None => [Reserve (handle_for s1 w1)]
                  end),
           (fst (display s1 obj w1)).
    split; [reflexivity|]. split; [now rewrite Hs2|].
    apply emitted_extends. rewrite Ho2, Ho. now rewrite <- !app_assoc.
  - exact (run_app_raised _ _ _ _ _ _ Er).
Qed.

Lemma display_pushes_last_witness :
  exists h pre self',
    fst (run (new ColabBackend) (quiet_calls ++ [Display (VDataFrame sample_frame)])
             fresh_host) = Returned self' /\
    _display_ref self' = Some h /\
    emitted fresh_host
      (snd (run (new ColabBackend)
                (quiet_calls ++ [Display (VDataFrame sample_frame)]) fresh_host)) =
      pre ++ [Update h (VDataFrame sample_frame)].
Proof.
  exact (proj1 (display_pushes_last (new ColabBackend) quiet_calls
                  (VDataFrame sample_frame) fresh_host eq_refl eq_refl) eq_refl).
Defined.

(** ** Normalisation *)

(** X9: [_handle_input] is idempotent on each of the three classes that
    define it.  The result of [CLIBackend._handle_input] is never a
    [Styler] nor an empty [Series] or [DataFrame], and a [Styler] is
    treated exactly as its frame; the result of
    [ColabBackend._handle_input] is never a [Styler]; and only
    [CLIBackend._handle_input] can turn a value that is not [None] into
    [None]. *)
Theorem handle_input_normal_forms (obj : value) :
  (_handle_input CLIBackend (_handle_input CLIBackend obj) =
     _handle_input CLIBackend obj /\
   _handle_input JupyterBackend (_handle_input JupyterBackend obj) =
     _handle_input JupyterBackend obj /\
   _handle_input ColabBackend (_handle_input ColabBackend obj) =
     _handle_input ColabBackend obj) /\
  (is_Styler (_handle_input CLIBackend obj) = false /\
   is_empty_tabular (_handle_input CLIBackend obj) = false /\
   is_Styler (_handle_input ColabBackend obj) = false) /\
  (forall s : Styler,
     _handle_input CLIBackend (VStyler s) =
     _handle_input CLIBackend (VDataFrame (data s))) /\
  (is_None (_handle_input JupyterBackend obj) = is_None obj /\
   is_None (_handle_input ColabBackend obj) = is_None obj).
Proof.
  assert (Hcli : forall v,
            is_Styler v = false ->
            _handle_input CLIBackend v =
              if is_empty_tabular v then PyNone else v).
  { intros v Hv. destruct v; try discriminate Hv; reflexivity. }
  assert (Hun : forall v, exists p,
            is_Styler p = false /\
            _handle_input CLIBackend v =
              if is_empty_tabular p then PyNone else p).
  { intros v. destruct v as [|s|s|d|m|o];
      [exists PyNone | exists (VDataFrame (data s)) | exists (VSeries s)
      | exists (VDataFrame d) | exists (HTML m) | exists (VObject o)];
      split; reflexivity. }
  destruct (Hun obj) as (p & Hp & Heq).
  repeat split.
  - rewrite Heq. destruct (is_empty_tabular p) eqn:He; [reflexivity|].
    now rewrite (Hcli p Hp), He.
  - destruct obj; reflexivity.
  - rewrite Heq. now destruct (is_empty_tabular p).
  - rewrite Heq. now destruct (is_empty_tabular p) eqn:He.
  - destruct obj; reflexivity.
  - destruct obj; reflexivity.
Qed.

(** ** The registry *)

Lemma dict_get_set_same {V} (k : string) (v : V) (d : dict V) :
  dict_get (dict_set k v d) k = Some v.
Proof.
  induction d as [|[k' v'] d IH]; simpl.
  - now rewrite String.eqb_refl.
  - destruct (String.eqb_spec k' k) as [-> | Hne]; simpl.
    + now rewrite String.eqb_refl.
    + destruct (String.eqb_spec k' k); [contradiction | exact IH].
Qed.

Lemma dict_get_set_other {V} (k k0 : string) (v : V) (d : dict V) :
  k <> k0 -> dict_get (dict_set k v d) k0 = dict_get d k0.
Proof.
  intros Hne. induction d as [|[k' v'] d IH]; simpl.
  - destruct (String.eqb_spec k k0); [contradiction | reflexivity].
  - destruct (String.eqb_spec k' k) as [-> | Hk]; simpl.
    + destruct (String.eqb_spec k k0); [contradiction | reflexivity].
    + now rewrite IH.
Qed.

Lemma keys_dict_set_in {V} (k : string) (v : V) (d : dict V) :
  In k (keys d) -> keys (dict_set k v d) = keys d.
Proof.
  induction d as [|[k' v'] d IH]; simpl; [contradiction|].
  destruct (String.eqb_spec k' k) as [-> | Hne]; [reflexivity|].
  intros [H | H]; [contradiction|]. simpl. f_equal. now apply IH.
Qed.

Lemma keys_dict_set_new {V} (k : string) (v : V) (d : dict V) :
  ~ In k (keys d) -> keys (dict_set k v d) = keys d ++ [k].
Proof.
  induction d as [|[k' v'] d IH]; simpl; [reflexivity|].
  intros H. destruct (String.eqb_spec k' k) as [-> | Hne].
  - exfalso. apply H. now left.
  - simpl. f_equal. apply IH. intros Hin. apply H. now right.
Qed.

Lemma dict_comprehension_snoc {V} (key : V -> string) (l : list V) (x : V) :
  dict_comprehension key (l ++ [x]) =
  dict_set (key x) x (dict_comprehension key l).
Proof. unfold dict_comprehension. now rewrite fold_left_app. Qed.

Lemma NoDup_snoc {A} (l : list A) (a : A) :
  NoDup (l ++ [a]) <-> NoDup l /\ ~ In a l.
Proof.
  split.
  - intros H. apply NoDup_remove in H. now rewrite app_nil_r in H.
  - intros [H Hn]. induction H as [|x l Hx H IH]; simpl.
    + constructor; [intros [] | constructor].
    + constructor.
      * rewrite in_app_iff. simpl. intros [Hi | [<- | []]].
        -- now apply Hx.
        -- apply Hn. now left.
      * apply IH. intros Hi. apply Hn. now right.
Qed.

Lemma dict_comprehension_keys_facts {V} (key : V -> string) (l : list V) :
  NoDup (keys (dict_comprehension key l)) /\
  (forall k, In k (keys (dict_comprehension key l)) <-> In k (map key l)).
Proof.
  induction l as [|x l [IHn IHi]] using rev_ind.
  - split; [constructor | reflexivity].
  - rewrite dict_comprehension_snoc, map_app. simpl map.
    destruct (In_dec string_dec (key x) (keys (dict_comprehension key l)))
      as [Hin | Hout].
    + rewrite (keys_dict_set_in _ _ _ Hin). split; [exact IHn|].
      intros k. rewrite in_app_iff, IHi. simpl. split; [tauto|].
      intros [H | [<- | []]]; [exact H | now apply IHi].
    + rewrite (keys_dict_set_new _ _ _ Hout). split.
      * apply NoDup_snoc. now split.
      * intros k. rewrite !in_app_iff, IHi. reflexivity.
Qed.

Lemma dict_comprehension_distinct {V} (key : V -> string) (l : list V) :
  NoDup (map key l) ->
  keys (dict_comprehension key l) = map key l /\
  forall x, In x l -> dict_get (dict_comprehension key l) (key x) = Some x.
Proof.
  induction l as [|x l IH] using rev_ind; intros Hnd.
  - split; [reflexivity | contradiction].
  - rewrite map_app in Hnd. simpl in Hnd. apply NoDup_snoc in Hnd as [Hnd Hx].
    destruct (IH Hnd) as [IHk IHg].
    rewrite dict_comprehension_snoc, map_app. simpl map. split.
    + rewrite keys_dict_set_new by now rewrite IHk. now rewrite IHk.
    + intros y Hy. apply in_app_or in Hy as [Hy | [<- | []]].
      * rewrite dict_get_set_other; [now apply IHg|].
        intros Heq. apply Hx. rewrite Heq. now apply in_map.
      * apply dict_get_set_same.
Qed.

(** X10: a dict built by the comprehension [{key(b): b for b in l}] has
    pairwise distinct keys, its keys are exactly the keys of the members of
    [l], and looking up the key of the last member gives that member (a
    later member replaces an earlier one with the same key). *)
Theorem dict_comprehension_keys {V} (key : V -> string) (l : list V) :
  NoDup (keys (dict_comprehension key l)) /\
  (forall k, In k (keys (dict_comprehension key l)) <-> In k (map key l)) /\
  (forall k, dict_get (dict_comprehension key l) k = None <-> ~ In k (map key l)) /\
  (forall x, dict_get (dict_comprehension key (l ++ [x])) (key x) = Some x).
Proof.
  destruct (dict_comprehension_keys_facts key l) as [Hn Hi].
  repeat split; auto.
  - apply Hi.
  - apply Hi.
  - intros H Hin. apply dict_get_None in H. apply H. now apply Hi.
  - intros H. apply dict_get_None. intros Hin. apply H. now apply Hi.
  - intros x. rewrite dict_comprehension_snoc. apply dict_get_set_same.
Qed.

(** X11: when the members of [l] have pairwise distinct keys, the dict
    built by the comprehension lists their keys in the order of [l] and
    maps the key of every member to that member.  [backends] is such a
    dict, built from the four classes and their [id]. *)
Theorem dict_comprehension_lookup {V} (key : V -> string) (l : list V) :
  NoDup (map key l) ->
  keys (dict_comprehension key l) = map key l /\
  (forall x, In x l -> dict_get (dict_comprehension key l) (key x) = Some x) /\
  backends = dict_comprehension id backends_list.
Proof.
  intros Hnd. destruct (dict_comprehension_distinct key l Hnd) as [Hk Hg].
  repeat split; auto.
Qed.

Lemma dict_comprehension_lookup_witness :
  keys backends = map id backends_list /\
  (forall c, In c backends_list -> dict_get backends (id c) = Some c) /\
  backends = dict_comprehension id backends_list.
Proof.
  apply (dict_comprehension_lookup id backends_list).
  repeat constructor; simpl; intuition discriminate.
Defined.

(** ** Selecting a backend by name *)

Lemma lower_char_idempotent (a : ascii) :
  PyStr.lower_char (PyStr.lower_char a) = PyStr.lower_char a.
Proof.
  destruct a as [[] [] [] [] [] [] [] []]; vm_compute; reflexivity.
Qed.

Lemma lower_idempotent (s : string) : PyStr.lower (PyStr.lower s) = PyStr.lower s.
Proof.
  induction s as [|c s IH]; simpl; [reflexivity|].
  now rewrite lower_char_idempotent, IH.
Qed.

Lemma id_lower_ident (c : backend_class) : PyStr.lower_ident (id c) = true.
Proof. now destruct c. Qed.

Lemma backends_get_own_id (c : backend_class) : dict_get backends (id c) = Some c.
Proof. now destruct c. Qed.

(** X12: every backend class can be selected by its own [id], written in
    any letter case: the detector then constructs an instance of exactly
    that class, whatever the host is.  Two classes never have the same
    [id]. *)
Theorem select_by_own_id (q : shell_query) (c : backend_class) (s : string) :
  PyStr.case_variant s (id c) ->
  detect_backend q (SelStr s) = Ok (Fresh (new c)) /\
  forall c' : backend_class, id c' = id c -> c' = c.
Proof.
  intros Hcv. split.
  - pose proof (case_variant_lower (id c) s (id_lower_ident c) Hcv) as Hl.
    unfold detect_backend. now rewrite Hl, backends_get_own_id.
  - intros c' H. destruct c, c'; try reflexivity; discriminate H.
Qed.

Lemma select_by_own_id_witness :
  detect_backend (QueryShell "ZMQInteractiveShell") (SelStr "Silent") =
    Ok (Fresh (new SilentBackend)) /\
  forall c' : backend_class, id c' = id SilentBackend -> c' = SilentBackend.
Proof.
  apply (select_by_own_id (QueryShell "ZMQInteractiveShell") SilentBackend "Silent").
  simpl. repeat split; first [left; reflexivity | right; reflexivity].
Defined.

(** X13: the detector reads a string selector only through its lower-case
    form.  Lower-casing is idempotent, so a selector and its lower-case
    form give the same result, and two selectors with the same lower-case
    form give the same result, the error message included (it quotes the
    lower-case form, not the string as given). *)
Theorem detect_case_insensitive (q : shell_query) (s : string) :
  PyStr.lower (PyStr.lower s) = PyStr.lower s /\
  detect_backend q (SelStr (PyStr.lower s)) = detect_backend q (SelStr s) /\
  (forall s' : string,
     PyStr.lower s' = PyStr.lower s ->
     detect_backend q (SelStr s') = detect_backend q (SelStr s)) /\
  (forall msg : string,
     detect_backend q (SelStr s) = Raise (ValueError msg) ->
     msg = wrong_id_msg (PyStr.lower s)).
Proof.
  split; [apply lower_idempotent|]. split; [|split].
  - unfold detect_backend. now rewrite lower_idempotent.
  - intros s' H. unfold detect_backend. now rewrite H.
  - intros msg. unfold detect_backend.
    destruct (dict_get backends (PyStr.lower s)); [discriminate|].
    now intros [= <-].
Qed.

(** X14: the host is consulted only when no selector is given: for a
    string or an object, [detect_backend] gives the same result whatever
    [get_ipython()] does. *)
Theorem explicit_selector_ignores_host (q q' : shell_query) (sel : selector) :
  sel <> SelNone ->
  detect_backend q sel = detect_backend q' sel.
Proof.
  intros H. destruct sel; [contradiction | reflexivity | reflexivity].
Qed.

Lemma explicit_selector_ignores_host_witness :
  detect_backend QueryRaises (SelStr "colab") =
  detect_backend (QueryShell "TerminalInteractiveShell") (SelStr "colab").
Proof.
  apply explicit_selector_ignores_host. discriminate.
Defined.

(** X15: an object whose class derives from one of the four backend
    classes, or from [DisplayBackend] itself, through any number of
    subclasses is returned as it is: the same object, with nothing
    constructed, whatever attributes it has. *)
Theorem subclass_instance_passes_through
    (q : shell_query) (o : object) (names : list string) (root : pyclass) :
  ob_type o = fold_right Subclass root names ->
  issubclass_DisplayBackend root = true ->
  detect_backend q (SelObject o) = Ok (Same o).
Proof.
  intros Ht Hr. unfold detect_backend, isinstance_DisplayBackend. rewrite Ht.
  assert (H : issubclass_DisplayBackend (fold_right Subclass root names) = true).
  { clear Ht. induction names as [|n names IH]; simpl; auto. }
  now rewrite H.
Qed.

Lemma subclass_instance_passes_through_witness :
  detect_backend QueryNone
    (SelObject {| ob_type := Subclass "MyBackend" (Subclass "Base" (Concrete CLIBackend));
                  ob_attrs := [] |}) =
  Ok (Same {| ob_type := Subclass "MyBackend" (Subclass "Base" (Concrete CLIBackend));
              ob_attrs := [] |}).
Proof.
  exact (subclass_instance_passes_through QueryNone
           {| ob_type := Subclass "MyBackend" (Subclass "Base" (Concrete CLIBackend));
              ob_attrs := [] |}
           ["MyBackend"; "Base"] (Concrete CLIBackend) eq_refl eq_refl).
Defined.

(** ** Detection from the shell *)

Lemma prefix_split (sub s : string) :
  prefix sub s = true -> exists post, s = (sub ++ post)%string.
Proof.
  revert s. induction sub as [|c sub IH]; intros s H.
  - now exists s.
  - destruct s as [|c' s]; simpl in H; [discriminate H|].
    destruct (Ascii.ascii_dec c c') as [<- | _]; [|discriminate H].
    destruct (IH s H) as [post ->]. now exists post.
Qed.

Lemma prefix_refl (sub : string) : prefix sub sub = true.
Proof.
  induction sub as [|c sub IH]; simpl; [reflexivity|].
  destruct (Ascii.ascii_dec c c); [exact IH | contradiction].
Qed.

Lemma contains_prefix (sub s : string) :
  prefix sub s = true -> PyStr.contains sub s = true.
Proof. intros H. destruct s; cbn [PyStr.contains]; now rewrite H. Qed.

Lemma contains_infix (sub s : string) :
  PyStr.contains sub s = true <-> is_infix sub s.
Proof.
  split.
  - induction s as [|c s IH]; cbn [PyStr.contains]; intros H.
    + rewrite orb_false_r in H. destruct sub; [|simpl in H; discriminate H].
      now exists EmptyString, EmptyString.
    + apply orb_true_iff in H as [H | H].
      * destruct (prefix_split _ _ H) as [post Hp].
        exists EmptyString, post. exact Hp.
      * destruct (IH H) as (pre & post & ->).
        now exists (String c pre), post.
  - intros (pre & post & ->).
    apply contains_app_r, contains_app_l, contains_prefix, prefix_refl.
Qed.

(** X16: with no selector and a shell present, the class is chosen by the
    name of the shell's class alone: [CLIBackend] exactly when "Terminal"
    occurs in it; otherwise [ColabBackend] exactly when "google.colab"
    occurs in it; otherwise [JupyterBackend].  "Terminal" wins over
    "google.colab". *)
Theorem detect_by_shell_name (name : string) :
  (detect_backend (QueryShell name) SelNone = Ok (Fresh (new CLIBackend)) <->
     is_infix "Terminal" name) /\
  (detect_backend (QueryShell name) SelNone = Ok (Fresh (new ColabBackend)) <->
     ~ is_infix "Terminal" name /\ is_infix "google.colab" name) /\
  (detect_backend (QueryShell name) SelNone = Ok (Fresh (new JupyterBackend)) <->
     ~ is_infix "Terminal" name /\ ~ is_infix "google.colab" name).
Proof.
  rewrite <- !contains_infix. unfold detect_backend.
  destruct (PyStr.contains "Terminal" name),
           (PyStr.contains "google.colab" name); cbn;
    repeat split; intros; try discriminate; try reflexivity;
    intuition congruence.
Qed.

(** X17: with no selector, the detector never chooses [SilentBackend]; the
    instance it constructs holds no handle; and the backend it chooses can
    update exactly when a shell is present whose class name does not
    contain "Terminal". *)
Theorem detect_absent_never_silent (q : shell_query) :
  exists i : instance,
    detect_backend q SelNone = Ok (Fresh i) /\
    class_of i <> SilentBackend /\
    _display_ref i = None /\
    (can_update (class_of i) = true <->
       exists name, q = QueryShell name /\ ~ is_infix "Terminal" name).
Proof.
  destruct q as [| |name]; cbn.
  - exists (new CLIBackend). repeat split; try discriminate.
    intros (name & H & _). discriminate H.
  - exists (new CLIBackend). repeat split; try discriminate.
    intros (name & H & _). discriminate H.
  - destruct (PyStr.contains "Terminal" name) eqn:Et; cbn.
    + exists (new CLIBackend). repeat split; try discriminate.
      intros (n & [= <-] & Hn). exfalso. apply Hn. now apply contains_infix.
    + assert (Hn : ~ is_infix "Terminal" name).
      { intros H. apply contains_infix in H. congruence. }
      destruct (PyStr.contains "google.colab" name);
        eexists; repeat split; try discriminate; eauto.
Qed.

(** ** Clearing before anything was displayed *)

Lemma run_clears_only (self : instance) (cs : list call) (w : host) :
  notebook_family self -> _display_ref self = None ->
  existsb is_Display cs = false ->
  fst (run self cs w) = Returned self /\
  next_display_id (snd (run self cs w)) = next_display_id w /\
  output (snd (run self cs w)) =
    output w ++ map (fun _ => ClearOutput true) (filter is_ClearOutputCall cs).
Proof.
  intros Hnb Href. revert w. induction cs as [|c cs IH]; intros w Hno.
  - cbn. now rewrite app_nil_r.
  - simpl in Hno. apply orb_false_iff in Hno as [Hc Hcs].
    rewrite run_cons. destruct c as [obj| |]; [discriminate Hc| |].
    + cbn [perform]. rewrite clear_display_notebook, Hnb, Href. cbn [fst snd].
      destruct (IH w Hcs) as (H1 & H2 & H3).
      cbn [filter is_ClearOutputCall]. repeat split; congruence.
    + rewrite perform_clear_output. cbn [fst snd].
      destruct (clear_output_notebook self w) as (Hs & Hn & Ho).
      rewrite Hnb in Ho.
      rewrite Hs. destruct (IH (snd (clear_output self w)) Hcs) as (H1 & H2 & H3).
      cbn [filter is_ClearOutputCall map]. repeat split; try congruence.
      rewrite H3, Ho, <- app_assoc. reflexivity.
Qed.

(** X18: on a notebook-family instance that has not displayed anything,
    [clear_display] does nothing at all: it returns, and neither creates a
    handle nor sends an update.  A sequence of clear calls returns, leaves
    the instance without a handle and sends the host one
    [clear_output(wait=True)] per [clear_output] call and nothing else. *)
Theorem clear_before_display (self : instance) (cs : list call) (w : host) :
  notebook_family self -> _display_ref self = None ->
  existsb is_Display cs = false ->
  fst (run self cs w) = Returned self /\
  next_display_id (snd (run self cs w)) = next_display_id w /\
  emitted w (snd (run self cs w)) =
    map (fun _ => ClearOutput true) (filter is_ClearOutputCall cs) /\
  clear_display self w = (Returned self, w).
Proof.
  intros Hnb Href Hno.
  destruct (run_clears_only self cs w Hnb Href Hno) as (H1 & H2 & H3).
  repeat split; auto.
  - now apply emitted_extends.
  - now rewrite clear_display_notebook, Hnb, Href.
Qed.

Lemma clear_before_display_witness :
  emitted fresh_host
    (snd (run (new JupyterBackend)
              [ClearDisplay; ClearOutputCall; ClearDisplay] fresh_host))
  = [ClearOutput true].
Proof.
  exact (proj1 (proj2 (proj2
    (clear_before_display (new JupyterBackend)
       [ClearDisplay; ClearOutputCall; ClearDisplay] fresh_host
       eq_refl eq_refl eq_refl)))).
Defined.
